(** * lib/ai/providers.ts and lib/ai/models.ts of nextjs-chat

    A shallow embedding of the provider configuration module.  The module is
    a sequence of top-level bindings evaluated once when it is loaded; the
    only effects it has are reading [process.env] and the exception that
    [JSON.parse] may throw.  Module evaluation is therefore written in a small
    state-and-exception monad over a [World] that holds [process.env] and the
    trace of the environment variables read so far. *)

From stdpp Require Import base option list strings gmap.

Open Scope string_scope.

(** ** JavaScript values and operators *)

(** [process.env.X] is a string or [undefined]; a value is truthy unless it is
    [undefined] or the empty string. *)
Definition truthy (v : option string) : bool :=
  match v with
  | Some (String _ _) => true
  | Some EmptyString => false
  | None => false
  end.

(** [v || d] for [v : string | undefined] and a string literal [d]. *)
Definition or_else (v : option string) (d : string) : string :=
  match v with
  | Some s => if truthy v then s else d
  | None => d
  end.

Inductive Exception : Type :=
  | SyntaxError (text : string).

Inductive Outcome (A : Type) : Type :=
  | Returned (a : A)
  | Thrown (e : Exception).
Arguments Returned {A} a.
Arguments Thrown {A} e.

(** ** What the module takes from outside the two source files

    [JSON.parse] is the built-in of the JavaScript runtime ([None] stands for
    the [SyntaxError] it throws), [{}] is the empty object literal, and the
    four test doubles are the bindings imported from [./models.test]. *)
Class Externals : Type := {
  JSValue : Type;
  empty_object : JSValue;
  JSON_parse : string -> option JSValue;
  MockLanguageModel : Type;
  chatModel : MockLanguageModel;
  reasoningModel : MockLanguageModel;
  titleModel : MockLanguageModel;
  artifactModel : MockLanguageModel
}.

(** ** The world a module is evaluated in *)

Record World : Type := mkWorld {
  process_env : gmap string string;
  env_reads : list string
}.

Definition Eval (A : Type) : Type := World -> Outcome A * World.

Definition ret {A} (a : A) : Eval A := fun w => (Returned a, w).

Definition throw {A} (e : Exception) : Eval A := fun w => (Thrown e, w).

Definition bind {A B} (m : Eval A) (k : A -> Eval B) : Eval B :=
  fun w =>
    match m w with
    | (Returned a, w') => k a w'
    | (Thrown e, w') => (Thrown e, w')
    end.

Notation "'let*' x ':=' m 'in' k" := (bind m (fun x => k))
  (at level 10, x name, m at level 100, k at level 200).

(** [process.env[name]]: the read is recorded in the trace. *)
Definition getenv (name : string) : Eval (option string) :=
  fun w =>
    (Returned (process_env w !! name),
     mkWorld (process_env w) (env_reads w ++ [name])).

(** What the process starts with: the contents of [process.env] and the value
    of [isTestEnvironment], a constant imported from [../constants]. *)
Record Environment : Type := mkEnvironment {
  env_vars : gmap string string;
  isTestEnvironment : bool
}.

Definition boot (e : Environment) : World := mkWorld (env_vars e) [].

(** ** The AI SDK objects the module builds

    The SDK constructors are kept symbolic: each value records which
    constructor built it and from which arguments. *)

Record OpenAICompatibleProviderSettings `{Externals} : Type := mkSettings {
  name : string;
  apiKey : string;
  baseURL : string;
  headers : JSValue
}.
Arguments mkSettings {_} name apiKey baseURL headers.

Inductive OpenAICompatibleProvider `{Externals} : Type :=
  | createOpenAICompatible (settings : OpenAICompatibleProviderSettings).

Inductive LanguageModelMiddleware : Type :=
  | extractReasoningMiddleware (tagName : string).

Inductive LanguageModel `{Externals} : Type :=
  | mockModel (m : MockLanguageModel)
  | providerModel (provider : OpenAICompatibleProvider) (modelId : string)
  | wrapLanguageModel (model : LanguageModel) (middleware : LanguageModelMiddleware).

Inductive ImageModel `{Externals} : Type :=
  | imageModel (provider : OpenAICompatibleProvider) (modelId : string).

Record Provider `{Externals} : Type := customProvider {
  languageModels : gmap string LanguageModel;
  imageModels : option (gmap string ImageModel)
}.
Arguments customProvider {_} languageModels imageModels.

(** ** lib/ai/providers.ts *)

Section Providers.
Context `{X : Externals}.

(** [JSON.parse(v)]: the argument is converted to a string first. *)
Definition JSON_parse_value (v : option string) : Eval JSValue :=
  let text := default "undefined" v in
  match JSON_parse text with
  | Some j => ret j
  | None => throw (SyntaxError text)
  end.

Definition customAgentProvider_init : Eval OpenAICompatibleProvider :=
  let* n := getenv "CUSTOM_AGENT_PROVIDER_NAME" in
  let* k := getenv "CUSTOM_AGENT_API_KEY" in
  let* u := getenv "CUSTOM_AGENT_BASE_URL" in
  let* c := getenv "CUSTOM_AGENT_HEADERS" in
  let* h := (if truthy c
             then let* a := getenv "CUSTOM_AGENT_HEADERS" in JSON_parse_value a
             else ret empty_object) in
  ret (createOpenAICompatible
         {| name := or_else n "custom-agent";
            apiKey := or_else k "dummy-key";
            baseURL := or_else u "http://localhost:8000/v1";
            headers := h |}).

Definition test_languageModels : gmap string LanguageModel :=
  <["chat-model" := mockModel chatModel]>
  (<["chat-model-reasoning" := mockModel reasoningModel]>
  (<["title-model" := mockModel titleModel]>
  (<["artifact-model" := mockModel artifactModel]> ∅))).

Definition myProvider_init (isTest : bool)
    (customAgentProvider : OpenAICompatibleProvider) : Eval Provider :=
  if isTest
  then ret (customProvider test_languageModels None)
  else
    let* c := getenv "CUSTOM_AGENT_CHAT_MODEL" in
    let chat := providerModel customAgentProvider (or_else c "gpt-4o-mini") in
    let* r := getenv "CUSTOM_AGENT_REASONING_MODEL" in
    let reasoning :=
      wrapLanguageModel
        (providerModel customAgentProvider (or_else r "gpt-4o"))
        (extractReasoningMiddleware "think") in
    let* t := getenv "CUSTOM_AGENT_TITLE_MODEL" in
    let title := providerModel customAgentProvider (or_else t "gpt-3.5-turbo") in
    let* a := getenv "CUSTOM_AGENT_ARTIFACT_MODEL" in
    let artifact := providerModel customAgentProvider (or_else a "gpt-4o") in
    ret (customProvider
           (<["chat-model" := chat]>
           (<["chat-model-reasoning" := reasoning]>
           (<["title-model" := title]>
           (<["artifact-model" := artifact]> ∅))))
           None).

(** The bindings of the module once it is loaded. *)
Record Bindings : Type := mkBindings {
  customAgentProvider : OpenAICompatibleProvider;
  myProvider : Provider
}.

Definition providers_module (isTest : bool) : Eval Bindings :=
  let* cap := customAgentProvider_init in
  let* p := myProvider_init isTest cap in
  ret (mkBindings cap p).

Definition load (e : Environment) : Outcome Bindings * World :=
  providers_module (isTestEnvironment e) (boot e).

End Providers.

(** ** lib/ai/models.ts *)

Definition DEFAULT_CHAT_MODEL : string := "chat-model".

(** The field [name] of the interface is [label] here: [name] is already the
    field of the provider settings. *)
Record ChatModel : Type := mkChatModel {
  id : string;
  label : string;
  description : string
}.

Definition chatModels : list ChatModel :=
  [ mkChatModel "chat-model" "Chat model"
      "Primary model for all-purpose chat via custom agent backend";
    mkChatModel "chat-model-reasoning" "Reasoning model"
      "Uses advanced reasoning via custom agent backend" ].

(** ** Observations on the configuration *)

Definition model_keys : gset string :=
  {[ "chat-model"; "chat-model-reasoning"; "title-model"; "artifact-model" ]}.

(** The environment variables named in the external interface. *)
Definition consumed_variables : list string :=
  [ "CUSTOM_AGENT_PROVIDER_NAME"; "CUSTOM_AGENT_API_KEY";
    "CUSTOM_AGENT_BASE_URL"; "CUSTOM_AGENT_HEADERS";
    "CUSTOM_AGENT_CHAT_MODEL"; "CUSTOM_AGENT_REASONING_MODEL";
    "CUSTOM_AGENT_TITLE_MODEL"; "CUSTOM_AGENT_ARTIFACT_MODEL" ].

Definition model_variables : list string :=
  [ "CUSTOM_AGENT_CHAT_MODEL"; "CUSTOM_AGENT_REASONING_MODEL";
    "CUSTOM_AGENT_TITLE_MODEL"; "CUSTOM_AGENT_ARTIFACT_MODEL" ].

Definition agree_on (vars : list string) (e1 e2 : Environment) : Prop :=
  Forall (fun v => env_vars e1 !! v = env_vars e2 !! v) vars.

Definition unset_or_empty (v : option string) : Prop :=
  v = None \/ v = Some "".

Section Observations.
Context `{X : Externals}.

Definition settings_of (p : OpenAICompatibleProvider)
    : OpenAICompatibleProviderSettings :=
  match p with createOpenAICompatible s => s end.

(** The provider a model was obtained from, and the backend identifier it
    was obtained with; a wrapped model is looked through. *)
Fixpoint backend (m : LanguageModel) : option (OpenAICompatibleProvider * string) :=
  match m with
  | mockModel _ => None
  | providerModel p i => Some (p, i)
  | wrapLanguageModel m' _ => backend m'
  end.


Definition is_test_double (m : LanguageModel) : bool :=
  match m with mockModel _ => true | _ => false end.

(** The backend identifier wired into a role of the loaded module. *)
Definition role_backend (b : Bindings) (role : string) : option string :=
  m ← languageModels (myProvider b) !! role; snd <$> backend m.




Definition valid_JSON (s : string) : Prop := is_Some (JSON_parse s).

Definition outcome_of {A} (r : Outcome A * World) : Outcome A := fst r.

Definition trace_of {A} (r : Outcome A * World) : list string := env_reads (snd r).

End Observations.

(** A small instance of the externals, for running the module on concrete
    environments: header objects are association lists, the parser accepts
    the text of the empty object only, and the test doubles are told apart by
    name. *)
Definition sample_externals : Externals :=
  {| JSValue := list (string * string);
     empty_object := [];
     JSON_parse := fun s => if String.eqb s "{}" then Some [] else None;
     MockLanguageModel := string;
     chatModel := "chatModel";
     reasoningModel := "reasoningModel";
     titleModel := "titleModel";
     artifactModel := "artifactModel" |}.

Definition no_variables : Environment := mkEnvironment ∅ false.

(** A test run: [process.env] carries a variable of the test runner, which is
    none of the eight, and [isTestEnvironment] holds. *)
Definition test_run : Environment :=
  mkEnvironment {[ "PLAYWRIGHT" := "True" ]} true.


Definition local_backend : Environment :=
  mkEnvironment
    (<["CUSTOM_AGENT_CHAT_MODEL" := "llama-3"]>
    (<["CUSTOM_AGENT_HEADERS" := "{}"]>
    (<["CUSTOM_AGENT_BASE_URL" := "http://agent:9000/v1"]> ∅)))
    false.

Definition test_run_with_models : Environment :=
  mkEnvironment
    (<["CUSTOM_AGENT_CHAT_MODEL" := "llama-3"]>
    (<["CUSTOM_AGENT_ARTIFACT_MODEL" := "llama-3-70b"]> (env_vars test_run)))
    true.

Definition local_backend_with_path : Environment :=
  mkEnvironment (<["PATH" := "/usr/bin"]> (env_vars local_backend)) false.

Definition malformed_headers : Environment :=
  mkEnvironment {[ "CUSTOM_AGENT_HEADERS" := "{X-Custom" ]} false.

(** ** The module in closed form

    What evaluation of the module amounts to, as plain functions of the
    contents of [process.env]; [providers_module_run] below relates them to
    the evaluation itself. *)

Section ClosedForm.
Context `{X : Externals}.

Definition configured_headers (env : gmap string string) : Outcome JSValue :=
  let c := env !! "CUSTOM_AGENT_HEADERS" in
  if truthy c
  then match JSON_parse (default "undefined" c) with
       | Some j => Returned j
       | None => Thrown (SyntaxError (default "undefined" c))
       end
  else Returned empty_object.

Definition configured_provider (env : gmap string string) (h : JSValue)
    : OpenAICompatibleProvider :=
  createOpenAICompatible
    {| name := or_else (env !! "CUSTOM_AGENT_PROVIDER_NAME") "custom-agent";
       apiKey := or_else (env !! "CUSTOM_AGENT_API_KEY") "dummy-key";
       baseURL := or_else (env !! "CUSTOM_AGENT_BASE_URL") "http://localhost:8000/v1";
       headers := h |}.

Definition production_languageModels (env : gmap string string)
    (cap : OpenAICompatibleProvider) : gmap string LanguageModel :=
  <["chat-model" :=
      providerModel cap (or_else (env !! "CUSTOM_AGENT_CHAT_MODEL") "gpt-4o-mini")]>
  (<["chat-model-reasoning" :=
      wrapLanguageModel
        (providerModel cap (or_else (env !! "CUSTOM_AGENT_REASONING_MODEL") "gpt-4o"))
        (extractReasoningMiddleware "think")]>
  (<["title-model" :=
      providerModel cap (or_else (env !! "CUSTOM_AGENT_TITLE_MODEL") "gpt-3.5-turbo")]>
  (<["artifact-model" :=
      providerModel cap (or_else (env !! "CUSTOM_AGENT_ARTIFACT_MODEL") "gpt-4o")]> ∅))).

Definition selected_provider (isTest : bool) (env : gmap string string)
    (cap : OpenAICompatibleProvider) : Provider :=
  if isTest
  then customProvider test_languageModels None
  else customProvider (production_languageModels env cap) None.

Definition module_outcome (isTest : bool) (env : gmap string string)
    : Outcome Bindings :=
  match configured_headers env with
  | Returned h =>
      let cap := configured_provider env h in
      Returned (mkBindings cap (selected_provider isTest env cap))
  | Thrown x => Thrown x
  end.

Definition module_reads (isTest : bool) (env : gmap string string) : list string :=
  [ "CUSTOM_AGENT_PROVIDER_NAME"; "CUSTOM_AGENT_API_KEY";
    "CUSTOM_AGENT_BASE_URL"; "CUSTOM_AGENT_HEADERS" ]
  ++ (if truthy (env !! "CUSTOM_AGENT_HEADERS") then ["CUSTOM_AGENT_HEADERS"] else [])
  ++ match configured_headers env with
     | Returned _ => if isTest then [] else model_variables
     | Thrown _ => []
     end.

End ClosedForm.

(** The bindings expected from the sample environments. *)

Definition default_provider : @OpenAICompatibleProvider sample_externals :=
  createOpenAICompatible
    (@mkSettings sample_externals
       "custom-agent" "dummy-key" "http://localhost:8000/v1" []).

Definition no_variables_bindings : @Bindings sample_externals :=
  mkBindings default_provider
    (customProvider (production_languageModels ∅ default_provider) None).

Definition test_run_bindings : @Bindings sample_externals :=
  mkBindings default_provider (customProvider test_languageModels None).

Definition local_provider : @OpenAICompatibleProvider sample_externals :=
  createOpenAICompatible
    (@mkSettings sample_externals
       "custom-agent" "dummy-key" "http://agent:9000/v1" []).

Definition local_backend_bindings : @Bindings sample_externals :=
  mkBindings local_provider
    (customProvider (production_languageModels (env_vars local_backend) local_provider)
                    None).

(** ** Effective values

    The variables providers.ts reads with [||], each with the literal it
    falls back to. *)
Definition fallbacks : list (string * string) :=
  [ ("CUSTOM_AGENT_PROVIDER_NAME", "custom-agent");
    ("CUSTOM_AGENT_API_KEY", "dummy-key");
    ("CUSTOM_AGENT_BASE_URL", "http://localhost:8000/v1");
    ("CUSTOM_AGENT_CHAT_MODEL", "gpt-4o-mini");
    ("CUSTOM_AGENT_REASONING_MODEL", "gpt-4o");
    ("CUSTOM_AGENT_TITLE_MODEL", "gpt-3.5-turbo");
    ("CUSTOM_AGENT_ARTIFACT_MODEL", "gpt-4o") ].

(** The value [process.env[var] || fallback] of an entry of the table. *)
Definition effective (env : gmap string string) (vd : string * string) : string :=
  or_else (env !! fst vd) (snd vd).

(** The text that goes to [JSON.parse], if any does. *)
Definition headers_text (env : gmap string string) : option string :=
  if truthy (env !! "CUSTOM_AGENT_HEADERS")
  then env !! "CUSTOM_AGENT_HEADERS"
  else None.

Definition same_effective_values (e1 e2 : Environment) : Prop :=
  Forall (fun vd => effective (env_vars e1) vd = effective (env_vars e2) vd) fallbacks /\
  headers_text (env_vars e1) = headers_text (env_vars e2).


(** The base URL, the model mapping and the provider name as the setup guide
    spells them out, with an empty CUSTOM_AGENT_HEADERS. *)
Definition guide_values : Environment :=
  mkEnvironment
    (<["CUSTOM_AGENT_BASE_URL" := "http://localhost:8000/v1"]>
    (<["CUSTOM_AGENT_CHAT_MODEL" := "gpt-4o-mini"]>
    (<["CUSTOM_AGENT_REASONING_MODEL" := "gpt-4o"]>
    (<["CUSTOM_AGENT_TITLE_MODEL" := "gpt-3.5-turbo"]>
    (<["CUSTOM_AGENT_ARTIFACT_MODEL" := "gpt-4o"]>
    (<["CUSTOM_AGENT_HEADERS" := ""]>
    (<["CUSTOM_AGENT_PROVIDER_NAME" := "custom-agent"]> ∅)))))))
    false.

(** A second backend, differing from [local_backend] in the chat model. *)
Definition other_backend : Environment :=
  mkEnvironment (<["CUSTOM_AGENT_CHAT_MODEL" := "mistral-7b"]> (env_vars local_backend))
                false.

Definition other_backend_bindings : @Bindings sample_externals :=
  mkBindings local_provider
    (customProvider (production_languageModels (env_vars other_backend) local_provider)
                    None).

(** CUSTOM_AGENT_HEADERS holds a non-empty text that [JSON.parse] rejects. *)
Definition headers_malformed `{Externals} (env : gmap string string) : Prop :=
  exists s, env !! "CUSTOM_AGENT_HEADERS" = Some s /\ s <> "" /\ ~ valid_JSON s.

(** * Properties *)

Section Evaluation.
Context `{X : Externals}.

Lemma truthy_spec (v : option string) :
  truthy v = true <-> exists s, v = Some s /\ s <> "".
Proof.
  split.
  - destruct v as [[|a s]|]; simpl; try discriminate.
    intros _. exists (String a s). split; [reflexivity | discriminate].
  - intros (s & -> & Hs). destruct s; [contradiction | reflexivity].
Qed.

Lemma not_truthy_spec (v : option string) :
  truthy v = false <-> unset_or_empty v.
Proof.
  unfold unset_or_empty. split.
  - destruct v as [[|a s]|]; simpl; try discriminate; auto.
  - intros [-> | ->]; reflexivity.
Qed.



(** Evaluating the module from any world gives the closed form, leaves
    [process.env] as it was and appends the reads to the trace. *)
Lemma providers_module_run (isTest : bool) (w : World) :
  providers_module isTest w =
    (module_outcome isTest (process_env w),
     mkWorld (process_env w) (env_reads w ++ module_reads isTest (process_env w))).
Proof.
  unfold providers_module, customAgentProvider_init, myProvider_init,
    module_outcome, module_reads, configured_headers, JSON_parse_value,
    selected_provider, production_languageModels, configured_provider,
    bind, getenv, ret, throw.
  cbn [process_env env_reads].
  destruct (truthy (process_env w !! "CUSTOM_AGENT_HEADERS"));
    cbn [process_env env_reads].
  - destruct (JSON_parse (default "undefined" (process_env w !! "CUSTOM_AGENT_HEADERS")));
      destruct isTest; cbn [process_env env_reads];
      rewrite <- ?app_assoc; reflexivity.
  - destruct isTest; cbn [process_env env_reads];
      rewrite <- ?app_assoc; reflexivity.
Qed.

Lemma load_run (e : Environment) :
  load e =
    (module_outcome (isTestEnvironment e) (env_vars e),
     mkWorld (env_vars e) (module_reads (isTestEnvironment e) (env_vars e))).
Proof. unfold load. rewrite providers_module_run. reflexivity. Qed.

End Evaluation.

Section Mapping.
Context `{X : Externals}.

(** A successful load: the headers were obtained and the bindings and the
    final world are the closed form. *)
Lemma load_returned (e : Environment) (b : Bindings) (w : World) :
  load e = (Returned b, w) ->
  exists h,
    configured_headers (env_vars e) = Returned h /\
    customAgentProvider b = configured_provider (env_vars e) h /\
    myProvider b =
      selected_provider (isTestEnvironment e) (env_vars e) (customAgentProvider b) /\
    w = mkWorld (env_vars e) (module_reads (isTestEnvironment e) (env_vars e)).
Proof.
  rewrite load_run. unfold module_outcome.
  destruct (configured_headers (env_vars e)) as [h|x]; [|discriminate].
  intros Heq. injection Heq as <- <-. exists h. auto.
Qed.

Lemma test_lookup :
  test_languageModels !! "chat-model" = Some (mockModel chatModel) /\
  test_languageModels !! "chat-model-reasoning" = Some (mockModel reasoningModel) /\
  test_languageModels !! "title-model" = Some (mockModel titleModel) /\
  test_languageModels !! "artifact-model" = Some (mockModel artifactModel).
Proof. repeat split; reflexivity. Qed.

Lemma production_lookup (env : gmap string string) (cap : OpenAICompatibleProvider) :
  production_languageModels env cap !! "chat-model" =
    Some (providerModel cap (or_else (env !! "CUSTOM_AGENT_CHAT_MODEL") "gpt-4o-mini")) /\
  production_languageModels env cap !! "chat-model-reasoning" =
    Some (wrapLanguageModel
            (providerModel cap (or_else (env !! "CUSTOM_AGENT_REASONING_MODEL") "gpt-4o"))
            (extractReasoningMiddleware "think")) /\
  production_languageModels env cap !! "title-model" =
    Some (providerModel cap (or_else (env !! "CUSTOM_AGENT_TITLE_MODEL") "gpt-3.5-turbo")) /\
  production_languageModels env cap !! "artifact-model" =
    Some (providerModel cap (or_else (env !! "CUSTOM_AGENT_ARTIFACT_MODEL") "gpt-4o")).
Proof. repeat split; reflexivity. Qed.

Lemma elem_of_model_keys (k : string) :
  k ∈ model_keys <->
  k = "chat-model" \/ k = "chat-model-reasoning" \/
  k = "title-model" \/ k = "artifact-model".
Proof.
  unfold model_keys. rewrite !elem_of_union, !elem_of_singleton. tauto.
Qed.

Lemma test_dom : dom test_languageModels = model_keys.
Proof.
  unfold test_languageModels, model_keys.
  rewrite !dom_insert_L, dom_empty_L.
  apply set_eq. intros k.
  rewrite !elem_of_union, !elem_of_singleton, elem_of_empty. tauto.
Qed.

Lemma production_dom (env : gmap string string) (cap : OpenAICompatibleProvider) :
  dom (production_languageModels env cap) = model_keys.
Proof.
  unfold production_languageModels, model_keys.
  rewrite !dom_insert_L, dom_empty_L.
  apply set_eq. intros k.
  rewrite !elem_of_union, !elem_of_singleton, elem_of_empty. tauto.
Qed.

Lemma selected_dom (isTest : bool) (env : gmap string string)
    (cap : OpenAICompatibleProvider) :
  dom (languageModels (selected_provider isTest env cap)) = model_keys.
Proof. destruct isTest; [apply test_dom | apply production_dom]. Qed.

(** Every entry of the production mapping is one of the four written in
    the object literal. *)
Lemma production_entries (env : gmap string string) (cap : OpenAICompatibleProvider)
    (k : string) (m : LanguageModel) :
  production_languageModels env cap !! k = Some m ->
  (k = "chat-model" /\
     m = providerModel cap (or_else (env !! "CUSTOM_AGENT_CHAT_MODEL") "gpt-4o-mini")) \/
  (k = "chat-model-reasoning" /\
     m = wrapLanguageModel
           (providerModel cap (or_else (env !! "CUSTOM_AGENT_REASONING_MODEL") "gpt-4o"))
           (extractReasoningMiddleware "think")) \/
  (k = "title-model" /\
     m = providerModel cap (or_else (env !! "CUSTOM_AGENT_TITLE_MODEL") "gpt-3.5-turbo")) \/
  (k = "artifact-model" /\
     m = providerModel cap (or_else (env !! "CUSTOM_AGENT_ARTIFACT_MODEL") "gpt-4o")).
Proof.
  unfold production_languageModels. intros Hk.
  repeat (apply lookup_insert_Some in Hk as [[<- <-] | [_ Hk]]; [tauto |]).
  rewrite lookup_empty in Hk. discriminate.
Qed.

End Mapping.

Section Wiring.
Context `{X : Externals}.






End Wiring.

Section Initialization.
Context `{X : Externals}.

Lemma configured_headers_thrown (env : gmap string string) (x : Exception) :
  configured_headers env = Thrown x <->
  exists s, env !! "CUSTOM_AGENT_HEADERS" = Some s /\ s <> "" /\
            JSON_parse s = None /\ x = SyntaxError s.
Proof.
  unfold configured_headers. split.
  - destruct (truthy (env !! "CUSTOM_AGENT_HEADERS")) eqn:Ht; [| discriminate].
    apply truthy_spec in Ht as (s & Hs & Hne). rewrite Hs. simpl.
    destruct (JSON_parse s) eqn:Hp; [discriminate |].
    intros Heq. injection Heq as <-. exists s. auto.
  - intros (s & Hs & Hne & Hp & ->).
    assert (truthy (env !! "CUSTOM_AGENT_HEADERS") = true) as ->
      by (apply truthy_spec; eauto).
    rewrite Hs. simpl. rewrite Hp. reflexivity.
Qed.

Lemma configured_headers_falsy (env : gmap string string) :
  unset_or_empty (env !! "CUSTOM_AGENT_HEADERS") ->
  configured_headers env = Returned empty_object.
Proof.
  intros Hu. apply not_truthy_spec in Hu.
  unfold configured_headers. rewrite Hu. reflexivity.
Qed.

Lemma module_outcome_thrown (isTest : bool) (env : gmap string string)
    (x : Exception) :
  module_outcome isTest env = Thrown x <-> configured_headers env = Thrown x.
Proof.
  unfold module_outcome.
  destruct (configured_headers env); split; congruence.
Qed.

(** C5. Module initialization raises if and only if CUSTOM_AGENT_HEADERS is
    set to a non-empty string that is not valid JSON (the text goes to
    [JSON.parse], whose exception nothing catches); when the variable is
    unset or empty, the headers passed to [createOpenAICompatible] are the
    empty object and initialization does not fail. *)
Theorem initialization_fails_iff_headers_malformed (e : Environment) :
  ((exists x, outcome_of (load e) = Thrown x) <->
   (exists s, env_vars e !! "CUSTOM_AGENT_HEADERS" = Some s /\ s <> "" /\
              ~ valid_JSON s)) /\
  (unset_or_empty (env_vars e !! "CUSTOM_AGENT_HEADERS") ->
   exists b, outcome_of (load e) = Returned b /\
             headers (settings_of (customAgentProvider b)) = empty_object).
Proof.
  rewrite load_run. unfold outcome_of, valid_JSON. simpl. split.
  - split.
    + intros (x & Hx). apply module_outcome_thrown in Hx.
      apply configured_headers_thrown in Hx as (s & Hs & Hne & Hp & _).
      exists s. split; [exact Hs |]. split; [exact Hne |].
      rewrite Hp. intros [j Hj]. discriminate.
    + intros (s & Hs & Hne & Hp). exists (SyntaxError s).
      apply module_outcome_thrown, configured_headers_thrown.
      exists s. repeat split; auto.
      destruct (JSON_parse s) as [j|]; [| reflexivity].
      exfalso. apply Hp. eexists. reflexivity.
  - intros Hu. unfold module_outcome.
    rewrite (configured_headers_falsy _ Hu). eexists. split; reflexivity.
Qed.

(** C8. Module initialization succeeds when every one of the eight
    CUSTOM_AGENT_* variables is absent: the fallbacks name 'custom-agent',
    apiKey 'dummy-key', baseURL 'http://localhost:8000/v1' and headers {}
    are applied, so none of the variables is required for the module to
    load. *)
Theorem initialization_needs_no_variable (e : Environment) :
  Forall (fun v => env_vars e !! v = None) consumed_variables ->
  exists b,
    outcome_of (load e) = Returned b /\
    customAgentProvider b =
      createOpenAICompatible
        (mkSettings "custom-agent" "dummy-key" "http://localhost:8000/v1"
                    empty_object) /\
    dom (languageModels (myProvider b)) = model_keys.
Proof.
  intros Habs. unfold consumed_variables in Habs.
  repeat (apply Forall_cons_1 in Habs as [? Habs]).
  rewrite load_run. unfold outcome_of, module_outcome. simpl.
  rewrite configured_headers_falsy by (left; assumption).
  eexists. split; [reflexivity |]. simpl. split.
  - unfold configured_provider.
    repeat match goal with H : _ !! _ = None |- _ => rewrite H; clear H end.
    reflexivity.
  - apply selected_dom.
Qed.

End Initialization.

Section Selection.
Context `{X : Externals}.

(** The module either stops on malformed headers or loads: nothing else in
    it can fail. *)
Lemma load_cases (e : Environment) :
  (headers_malformed (env_vars e) /\ exists x, outcome_of (load e) = Thrown x) \/
  (~ headers_malformed (env_vars e) /\
   exists h,
     configured_headers (env_vars e) = Returned h /\
     load e =
       (Returned
          (mkBindings
             (configured_provider (env_vars e) h)
             (selected_provider (isTestEnvironment e) (env_vars e)
                (configured_provider (env_vars e) h))),
        mkWorld (env_vars e) (module_reads (isTestEnvironment e) (env_vars e)))).
Proof.
  rewrite load_run. unfold outcome_of, module_outcome, headers_malformed, valid_JSON.
  simpl. destruct (configured_headers (env_vars e)) as [h|x] eqn:Hh.
  - right. split.
    + intros (s & Hs & Hne & Hnv).
      assert (configured_headers (env_vars e) = Thrown (SyntaxError s)) as Hthrown.
      { apply configured_headers_thrown. exists s. repeat split; auto.
        destruct (JSON_parse s) as [j|]; [| reflexivity].
        exfalso. apply Hnv. eexists. reflexivity. }
      rewrite Hh in Hthrown. discriminate Hthrown.
    + exists h. split; reflexivity.
  - left. apply configured_headers_thrown in Hh as (s & Hs & Hne & Hp & _).
    split; [| eexists; reflexivity].
    exists s. split; [exact Hs |]. split; [exact Hne |].
    rewrite Hp. intros [j Hj]. discriminate Hj.
Qed.

(** C1. For every environment the module stops on malformed headers or
    loads, and when it loads the exported provider is selected by
    [isTestEnvironment] between two configurations: in a test environment its
    language models are the four test doubles [chatModel], [reasoningModel],
    [titleModel] and [artifactModel]; otherwise every one of its language
    models is obtained from [customAgentProvider], the provider built by
    [createOpenAICompatible]. *)
Theorem myProvider_selected_by_isTestEnvironment (e : Environment) :
  (headers_malformed (env_vars e) /\ exists x, outcome_of (load e) = Thrown x)
  \/
  (~ headers_malformed (env_vars e) /\
   exists b w,
     load e = (Returned b, w) /\
     ((isTestEnvironment e = true /\
         myProvider b = customProvider test_languageModels None /\
         languageModels (myProvider b) !! "chat-model" = Some (mockModel chatModel) /\
         languageModels (myProvider b) !! "chat-model-reasoning" =
           Some (mockModel reasoningModel) /\
         languageModels (myProvider b) !! "title-model" = Some (mockModel titleModel) /\
         languageModels (myProvider b) !! "artifact-model" =
           Some (mockModel artifactModel))
      \/
      (isTestEnvironment e = false /\
         myProvider b =
           customProvider
             (production_languageModels (env_vars e) (customAgentProvider b)) None /\
         (exists settings, customAgentProvider b = createOpenAICompatible settings) /\
         (forall k, k ∈ model_keys ->
            exists m, languageModels (myProvider b) !! k = Some m) /\
         forall k m,
           languageModels (myProvider b) !! k = Some m ->
           is_test_double m = false /\
           exists i, backend m = Some (customAgentProvider b, i)))).
Proof.
  destruct (load_cases e) as [Hbad | (Hok & h & _ & Hload)]; [left; exact Hbad |].
  right. split; [exact Hok |]. eexists. eexists. split; [exact Hload |].
  cbn [myProvider customAgentProvider].
  destruct (isTestEnvironment e); [left | right]; simpl.
  - pose proof test_lookup as (Hc & Hr & Ht & Ha). auto 10.
  - split; [reflexivity |]. split; [reflexivity |].
    split; [eexists; reflexivity |]. split.
    + intros k Hk. apply elem_of_dom.
      rewrite production_dom. exact Hk.
    + intros k m Hk.
      apply production_entries in Hk as [[_ ->] | [[_ ->] | [[_ ->] | [_ ->]]]];
        (split; [reflexivity | simpl; eexists; reflexivity]).
Qed.

(** C2. In the test branch and in the production branch alike, the module
    builds, unless malformed headers stop it, a language-model mapping of
    [myProvider] with exactly the four keys "chat-model",
    "chat-model-reasoning", "title-model" and "artifact-model", each mapped to
    a model, and configures no image models. *)
Theorem myProvider_has_exactly_four_keys (e : Environment) :
  (headers_malformed (env_vars e) /\ exists x, outcome_of (load e) = Thrown x)
  \/
  (~ headers_malformed (env_vars e) /\
   exists b w,
     load e = (Returned b, w) /\
     dom (languageModels (myProvider b)) = model_keys /\
     (forall k, is_Some (languageModels (myProvider b) !! k) <->
                k = "chat-model" \/ k = "chat-model-reasoning" \/
                k = "title-model" \/ k = "artifact-model") /\
     size (languageModels (myProvider b)) = 4 /\
     imageModels (myProvider b) = None).
Proof.
  destruct (load_cases e) as [Hbad | (Hok & h & _ & Hload)]; [left; exact Hbad |].
  right. split; [exact Hok |]. eexists. eexists. split; [exact Hload |].
  cbn [myProvider customAgentProvider].
  pose proof (selected_dom (isTestEnvironment e) (env_vars e)
                (configured_provider (env_vars e) h)) as Hdom.
  split; [exact Hdom |]. split; [| split].
  - intros k. rewrite <- elem_of_dom, Hdom. apply elem_of_model_keys.
  - rewrite <- size_dom, Hdom. reflexivity.
  - destruct (isTestEnvironment e); reflexivity.
Qed.

End Selection.

Section Dependence.
Context `{X : Externals}.

(** The closed form looks at [process.env] through the eight variables
    only. *)
Lemma module_agree (isTest : bool) (env1 env2 : gmap string string) :
  Forall (fun v => env1 !! v = env2 !! v) consumed_variables ->
  module_outcome isTest env1 = module_outcome isTest env2 /\
  module_reads isTest env1 = module_reads isTest env2.
Proof.
  intros Hag. unfold consumed_variables in Hag.
  repeat (apply Forall_cons_1 in Hag as [? Hag]).
  unfold module_outcome, module_reads, selected_provider,
    production_languageModels, configured_provider, configured_headers.
  repeat match goal with H : env1 !! _ = _ |- _ => rewrite H; clear H end.
  split; reflexivity.
Qed.

(** C6, as amended. The outcome of the module depends only on the eight
    CUSTOM_AGENT_* variables and on [isTestEnvironment]: two environments
    that agree on the eight variables and on [isTestEnvironment] give the
    same outcome (the same exception or the same bindings) and the same
    trace of reads. *)
Theorem outcome_depends_on_eight_variables_and_isTestEnvironment
    (e1 e2 : Environment) :
  agree_on consumed_variables e1 e2 ->
  isTestEnvironment e1 = isTestEnvironment e2 ->
  outcome_of (load e1) = outcome_of (load e2) /\
  trace_of (load e1) = trace_of (load e2).
Proof.
  intros Hag Htest. rewrite !load_run. unfold outcome_of, trace_of. simpl.
  rewrite Htest. apply module_agree. exact Hag.
Qed.

(** X7. Evaluation of the module, from any world and in either branch,
    writes nothing to [process.env] and reads no variable other than the
    eight; CUSTOM_AGENT_PROVIDER_NAME, CUSTOM_AGENT_API_KEY,
    CUSTOM_AGENT_BASE_URL and CUSTOM_AGENT_HEADERS are read on every
    evaluation, also on one that throws. *)
Theorem evaluation_writes_nothing_and_reads_only_the_eight
    (isTest : bool) (w : World) :
  process_env (snd (providers_module isTest w)) = process_env w /\
  exists reads : list string,
    trace_of (providers_module isTest w) = (env_reads w ++ reads)%list /\
    Forall (fun v => v ∈ consumed_variables) reads /\
    Forall (fun v => v ∈ reads)
      [ "CUSTOM_AGENT_PROVIDER_NAME"; "CUSTOM_AGENT_API_KEY";
        "CUSTOM_AGENT_BASE_URL"; "CUSTOM_AGENT_HEADERS" ].
Proof.
  rewrite !providers_module_run. unfold trace_of. simpl.
  split; [reflexivity |].
  exists (module_reads isTest (process_env w)). split; [reflexivity |].
  unfold module_reads, model_variables, consumed_variables.
  destruct (truthy (process_env w !! "CUSTOM_AGENT_HEADERS"));
    destruct (configured_headers (process_env w)); destruct isTest; simpl;
    (split;
     repeat (apply Forall_cons; split;
             [repeat first [apply list_elem_of_here | apply list_elem_of_further] |]);
     apply Forall_nil_2).
Qed.

(** C9. [DEFAULT_CHAT_MODEL] is 'chat-model', the id of an element of
    [chatModels]; [chatModels] has exactly two elements, with ids
    'chat-model' and 'chat-model-reasoning'; and in the test branch and in the
    production branch alike the module builds, unless malformed headers stop
    it, a language-model mapping of [myProvider] in which every id occurring
    in [chatModels] is a key. *)
Theorem chatModels_ids_are_provider_keys :
  DEFAULT_CHAT_MODEL = "chat-model" /\
  (exists m, m ∈ chatModels /\ id m = DEFAULT_CHAT_MODEL) /\
  length chatModels = 2 /\
  id <$> chatModels = ["chat-model"; "chat-model-reasoning"] /\
  (forall e : Environment,
     (headers_malformed (env_vars e) /\ exists x, outcome_of (load e) = Thrown x)
     \/
     (~ headers_malformed (env_vars e) /\
      exists b w,
        load e = (Returned b, w) /\
        forall m, m ∈ chatModels ->
                  is_Some (languageModels (myProvider b) !! id m))) /\
  (forall (e : Environment) (b : Bindings) (w : World) (m : ChatModel),
     load e = (Returned b, w) ->
     m ∈ chatModels ->
     is_Some (languageModels (myProvider b) !! id m)).
Proof.
  assert (Hkeys : forall m, m ∈ chatModels -> id m ∈ model_keys).
  { intros m Hm. apply elem_of_model_keys. unfold chatModels in Hm.
    apply elem_of_cons in Hm as [-> | Hm]; [left; reflexivity |].
    apply elem_of_cons in Hm as [-> | Hm]; [right; left; reflexivity |].
    apply elem_of_nil in Hm. contradiction. }
  split; [reflexivity |]. split.
  { eexists. split; [apply list_elem_of_here | reflexivity]. }
  split; [reflexivity |]. split; [reflexivity |]. split.
  - intros e.
    destruct (load_cases e) as [Hbad | (Hok & h & _ & Hload)]; [left; exact Hbad |].
    right. split; [exact Hok |]. eexists. eexists. split; [exact Hload |].
    intros m Hm. cbn [myProvider]. apply elem_of_dom.
    rewrite selected_dom. apply Hkeys, Hm.
  - intros e b w m Hload Hm.
    apply load_returned in Hload as (h & _ & _ & Hmy & _).
    apply elem_of_dom. rewrite Hmy, selected_dom. apply Hkeys, Hm.
Qed.

(** C10. In a test environment the language-model mapping of [myProvider]
    does not depend on the four model-selection variables: two test
    environments give the same mapping, each of the four keys going to the
    same test double, whatever the values of CUSTOM_AGENT_CHAT_MODEL,
    CUSTOM_AGENT_REASONING_MODEL, CUSTOM_AGENT_TITLE_MODEL and
    CUSTOM_AGENT_ARTIFACT_MODEL, none of which is read. *)
Theorem test_mapping_ignores_model_variables
    (e1 e2 : Environment) (b1 b2 : Bindings) (w1 w2 : World) :
  isTestEnvironment e1 = true ->
  isTestEnvironment e2 = true ->
  load e1 = (Returned b1, w1) ->
  load e2 = (Returned b2, w2) ->
  myProvider b1 = myProvider b2 /\
  (forall k, k ∈ model_keys ->
     exists d, languageModels (myProvider b1) !! k = Some (mockModel d) /\
               languageModels (myProvider b2) !! k = Some (mockModel d)) /\
  Forall (fun v => (v ∉ env_reads w1) /\ (v ∉ env_reads w2)) model_variables.
Proof.
  intros Ht1 Ht2 Hl1 Hl2.
  apply load_returned in Hl1 as (h1 & Hh1 & _ & Hmy1 & ->).
  apply load_returned in Hl2 as (h2 & Hh2 & _ & Hmy2 & ->).
  rewrite Ht1 in *. rewrite Ht2 in *. simpl in Hmy1, Hmy2.
  rewrite Hmy1, Hmy2. split; [reflexivity |]. split.
  - intros k Hk. apply elem_of_model_keys in Hk. simpl.
    destruct test_lookup as (Hc & Hr & Hti & Ha).
    destruct Hk as [-> | [-> | [-> | ->]]]; eexists; split; eassumption.
  - simpl. unfold module_reads. rewrite Hh1, Hh2. unfold model_variables.
    repeat (apply Forall_cons; split;
            [split; destruct (truthy _); simpl;
             rewrite ?elem_of_cons, elem_of_nil; intros Hin;
             repeat (destruct Hin as [Hin | Hin]; [discriminate |]);
             exact Hin |]).
    apply Forall_nil_2.
Qed.

End Dependence.

(** * The theorems at concrete environments *)

Lemma load_no_variables :
  load (X:=sample_externals) no_variables =
    (Returned no_variables_bindings, mkWorld ∅ consumed_variables).
Proof. vm_compute. reflexivity. Defined.

Lemma load_test_run :
  load (X:=sample_externals) test_run =
    (Returned test_run_bindings,
     mkWorld (env_vars test_run)
       [ "CUSTOM_AGENT_PROVIDER_NAME"; "CUSTOM_AGENT_API_KEY";
         "CUSTOM_AGENT_BASE_URL"; "CUSTOM_AGENT_HEADERS" ]).
Proof. vm_compute. reflexivity. Defined.

Lemma load_local_backend :
  load (X:=sample_externals) local_backend =
    (Returned local_backend_bindings,
     mkWorld (env_vars local_backend)
       [ "CUSTOM_AGENT_PROVIDER_NAME"; "CUSTOM_AGENT_API_KEY";
         "CUSTOM_AGENT_BASE_URL"; "CUSTOM_AGENT_HEADERS"; "CUSTOM_AGENT_HEADERS";
         "CUSTOM_AGENT_CHAT_MODEL"; "CUSTOM_AGENT_REASONING_MODEL";
         "CUSTOM_AGENT_TITLE_MODEL"; "CUSTOM_AGENT_ARTIFACT_MODEL" ]).
Proof. vm_compute. reflexivity. Defined.

Lemma load_test_run_with_models :
  load (X:=sample_externals) test_run_with_models =
    (Returned test_run_bindings,
     mkWorld (env_vars test_run_with_models)
       [ "CUSTOM_AGENT_PROVIDER_NAME"; "CUSTOM_AGENT_API_KEY";
         "CUSTOM_AGENT_BASE_URL"; "CUSTOM_AGENT_HEADERS" ]).
Proof. vm_compute. reflexivity. Defined.

Lemma not_malformed_no_variables :
  ~ headers_malformed (H:=sample_externals) (env_vars no_variables).
Proof. intros (s & Hs & _). vm_compute in Hs. discriminate Hs. Defined.

Lemma not_malformed_test_run :
  ~ headers_malformed (H:=sample_externals) (env_vars test_run).
Proof. intros (s & Hs & _). vm_compute in Hs. discriminate Hs. Defined.

Lemma myProvider_selected_by_isTestEnvironment_witness :
  (exists b w,
     load (X:=sample_externals) test_run = (Returned b, w) /\
     languageModels (myProvider b) !! "chat-model" = Some (mockModel chatModel) /\
     languageModels (myProvider b) !! "title-model" = Some (mockModel titleModel)) /\
  (exists b w,
     load (X:=sample_externals) no_variables = (Returned b, w) /\
     exists m i,
       languageModels (myProvider b) !! "chat-model" = Some m /\
       backend m = Some (customAgentProvider b, i)).
Proof.
  split.
  - destruct (myProvider_selected_by_isTestEnvironment (X:=sample_externals) test_run)
      as [[Hbad _] | (_ & b & w & Hload & Hsel)].
    + exfalso. exact (not_malformed_test_run Hbad).
    + exists b, w. split; [exact Hload |].
      destruct Hsel as [(_ & _ & Hc & _ & Hti & _) | (Hf & _)].
      * split; [exact Hc | exact Hti].
      * discriminate Hf.
  - destruct (myProvider_selected_by_isTestEnvironment (X:=sample_externals)
                no_variables)
      as [[Hbad _] | (_ & b & w & Hload & Hsel)].
    + exfalso. exact (not_malformed_no_variables Hbad).
    + exists b, w. split; [exact Hload |].
      destruct Hsel as [(Ht & _) | (_ & _ & _ & Hkeys & Hall)].
      * discriminate Ht.
      * destruct (Hkeys "chat-model") as [m Hm];
          [apply elem_of_model_keys; left; reflexivity |].
        destruct (Hall _ _ Hm) as [_ [i Hi]].
        exists m, i. split; [exact Hm | exact Hi].
Defined.

Lemma myProvider_has_exactly_four_keys_witness :
  (exists b w,
     load (X:=sample_externals) test_run = (Returned b, w) /\
     dom (languageModels (myProvider b)) = model_keys /\
     imageModels (myProvider b) = None) /\
  (exists b w,
     load (X:=sample_externals) no_variables = (Returned b, w) /\
     dom (languageModels (myProvider b)) = model_keys /\
     imageModels (myProvider b) = None).
Proof.
  split.
  - destruct (myProvider_has_exactly_four_keys (X:=sample_externals) test_run)
      as [[Hbad _] | (_ & b & w & Hload & Hdom & _ & _ & Himg)].
    + exfalso. exact (not_malformed_test_run Hbad).
    + exists b, w. auto.
  - destruct (myProvider_has_exactly_four_keys (X:=sample_externals) no_variables)
      as [[Hbad _] | (_ & b & w & Hload & Hdom & _ & _ & Himg)].
    + exfalso. exact (not_malformed_no_variables Hbad).
    + exists b, w. auto.
Defined.

Lemma chatModels_ids_are_provider_keys_witness :
  (exists b w,
     load (X:=sample_externals) test_run = (Returned b, w) /\
     is_Some (languageModels (myProvider b) !! "chat-model") /\
     is_Some (languageModels (myProvider b) !! "chat-model-reasoning")) /\
  (exists b w,
     load (X:=sample_externals) no_variables = (Returned b, w) /\
     is_Some (languageModels (myProvider b) !! "chat-model") /\
     is_Some (languageModels (myProvider b) !! "chat-model-reasoning")).
Proof.
  destruct (chatModels_ids_are_provider_keys (X:=sample_externals))
    as (_ & _ & _ & _ & Hbuilt & _).
  split.
  - destruct (Hbuilt test_run) as [[Hbad _] | (_ & b & w & Hload & Hids)].
    + exfalso. exact (not_malformed_test_run Hbad).
    + exists b, w. split; [exact Hload |]. split.
      * apply (Hids (mkChatModel "chat-model" "Chat model"
                 "Primary model for all-purpose chat via custom agent backend")).
        apply list_elem_of_here.
      * apply (Hids (mkChatModel "chat-model-reasoning" "Reasoning model"
                 "Uses advanced reasoning via custom agent backend")).
        apply list_elem_of_further, list_elem_of_here.
  - destruct (Hbuilt no_variables) as [[Hbad _] | (_ & b & w & Hload & Hids)].
    + exfalso. exact (not_malformed_no_variables Hbad).
    + exists b, w. split; [exact Hload |]. split.
      * apply (Hids (mkChatModel "chat-model" "Chat model"
                 "Primary model for all-purpose chat via custom agent backend")).
        apply list_elem_of_here.
      * apply (Hids (mkChatModel "chat-model-reasoning" "Reasoning model"
                 "Uses advanced reasoning via custom agent backend")).
        apply list_elem_of_further, list_elem_of_here.
Defined.




(** C6 as stated fails: a test run and a run with an empty [process.env]
    agree on the eight variables, none of which is set in either, and get
    different providers, the first the test doubles and the second the
    backend models. *)
Lemma selection_is_not_a_function_of_the_eight_variables :
  agree_on consumed_variables test_run no_variables /\
  outcome_of (load (X:=sample_externals) test_run) <>
    outcome_of (load (X:=sample_externals) no_variables).
Proof.
  split.
  - repeat constructor.
  - intros H.
    apply (f_equal (fun o => match o with
                             | Returned b => role_backend b "chat-model"
                             | Thrown _ => None
                             end)) in H.
    vm_compute in H. discriminate H.
Qed.

Lemma outcome_depends_on_eight_variables_and_isTestEnvironment_witness :
  agree_on consumed_variables local_backend local_backend_with_path /\
  isTestEnvironment local_backend = isTestEnvironment local_backend_with_path /\
  env_vars local_backend <> env_vars local_backend_with_path /\
  outcome_of (load (X:=sample_externals) local_backend) =
    outcome_of (load (X:=sample_externals) local_backend_with_path).
Proof.
  assert (Hag : agree_on consumed_variables local_backend local_backend_with_path)
    by (repeat constructor).
  split; [exact Hag |]. split; [reflexivity |]. split.
  - intros H. apply (f_equal (fun m => m !! "PATH")) in H. vm_compute in H.
    discriminate H.
  - exact (proj1 (outcome_depends_on_eight_variables_and_isTestEnvironment
                    local_backend local_backend_with_path Hag eq_refl)).
Defined.

Lemma initialization_needs_no_variable_witness :
  Forall (fun v => env_vars test_run !! v = None) consumed_variables /\
  exists b, outcome_of (load (X:=sample_externals) test_run) = Returned b /\
            customAgentProvider b = default_provider.
Proof.
  assert (Habs : Forall (fun v => env_vars test_run !! v = None) consumed_variables)
    by (repeat constructor).
  split; [exact Habs |].
  destruct (initialization_needs_no_variable (X:=sample_externals) test_run Habs)
    as (b & Hb & Hcap & _).
  exists b. split; [exact Hb | exact Hcap].
Defined.

Lemma test_mapping_ignores_model_variables_witness :
  isTestEnvironment test_run = true /\
  isTestEnvironment test_run_with_models = true /\
  env_vars test_run !! "CUSTOM_AGENT_CHAT_MODEL" = None /\
  env_vars test_run_with_models !! "CUSTOM_AGENT_CHAT_MODEL" = Some "llama-3" /\
  outcome_of (load (X:=sample_externals) test_run) = Returned test_run_bindings /\
  outcome_of (load (X:=sample_externals) test_run_with_models) =
    Returned test_run_bindings /\
  Forall (fun v => v ∉ trace_of (load (X:=sample_externals) test_run_with_models))
         model_variables.
Proof.
  split; [reflexivity |]. split; [reflexivity |].
  split; [reflexivity |]. split; [reflexivity |].
  split; [rewrite load_test_run; reflexivity |].
  split; [rewrite load_test_run_with_models; reflexivity |].
  destruct (test_mapping_ignores_model_variables
              test_run test_run_with_models _ _ _ _
              eq_refl eq_refl load_test_run load_test_run_with_models)
    as (_ & _ & Hreads).
  rewrite load_test_run_with_models. unfold trace_of. simpl.
  simpl in Hreads. eapply Forall_impl; [exact Hreads |].
  intros v [_ Hv]. exact Hv.
Defined.

(** Malformed headers stop the module before [myProvider] is selected, in a
    test environment as well. *)
Example load_malformed_headers :
  outcome_of (load (X:=sample_externals) malformed_headers) =
    Thrown (SyntaxError "{X-Custom") /\
  trace_of (load (X:=sample_externals) malformed_headers) =
    [ "CUSTOM_AGENT_PROVIDER_NAME"; "CUSTOM_AGENT_API_KEY";
      "CUSTOM_AGENT_BASE_URL"; "CUSTOM_AGENT_HEADERS"; "CUSTOM_AGENT_HEADERS" ] /\
  outcome_of (load (X:=sample_externals)
                (mkEnvironment (env_vars malformed_headers) true)) =
    Thrown (SyntaxError "{X-Custom").
Proof. repeat split; vm_compute; reflexivity. Qed.

Example local_backend_identifiers :
  role_backend local_backend_bindings "chat-model" = Some "llama-3" /\
  role_backend local_backend_bindings "chat-model-reasoning" = Some "gpt-4o" /\
  role_backend local_backend_bindings "title-model" = Some "gpt-3.5-turbo" /\
  role_backend local_backend_bindings "artifact-model" = Some "gpt-4o" /\
  baseURL (settings_of (customAgentProvider local_backend_bindings)) =
    "http://agent:9000/v1".
Proof. repeat split; vm_compute; reflexivity. Qed.

(** * Further properties of providers.ts *)

Section Settings.
Context `{X : Externals}.


Lemma or_else_nonempty (v : option string) (d : string) :
  d <> "" -> or_else v d <> "".
Proof.
  intros Hd. destruct v as [[|a s]|]; simpl; [exact Hd | discriminate | exact Hd].
Qed.

Lemma configured_headers_text (env : gmap string string) :
  configured_headers env =
    match headers_text env with
    | Some s => match JSON_parse s with
                | Some j => Returned j
                | None => Thrown (SyntaxError s)
                end
    | None => Returned empty_object
    end.
Proof.
  unfold configured_headers, headers_text.
  destruct (truthy (env !! "CUSTOM_AGENT_HEADERS")) eqn:Ht; [| reflexivity].
  apply truthy_spec in Ht as (s & -> & _). reflexivity.
Qed.


(** X2. When CUSTOM_AGENT_HEADERS is a non-empty string that [JSON.parse]
    accepts, the module loads and the headers handed to
    [createOpenAICompatible] are the parsed value. *)
Theorem headers_are_the_parsed_variable
    (e : Environment) (s : string) (j : JSValue) :
  env_vars e !! "CUSTOM_AGENT_HEADERS" = Some s ->
  s <> "" ->
  JSON_parse s = Some j ->
  exists b,
    outcome_of (load e) = Returned b /\
    headers (settings_of (customAgentProvider b)) = j.
Proof.
  intros Hs Hne Hj. rewrite load_run. unfold outcome_of, module_outcome. simpl.
  rewrite configured_headers_text. unfold headers_text.
  assert (truthy (env_vars e !! "CUSTOM_AGENT_HEADERS") = true) as ->
    by (apply truthy_spec; eauto).
  rewrite Hs, Hj. eexists. split; reflexivity.
Qed.

(** X3. No string of the configuration is ever empty: after a load, the name, the
    apiKey and the baseURL of the provider are non-empty, and so is every
    backend model identifier wired into a role. *)
Theorem configured_strings_are_never_empty
    (e : Environment) (b : Bindings) (w : World) :
  load e = (Returned b, w) ->
  name (settings_of (customAgentProvider b)) <> "" /\
  apiKey (settings_of (customAgentProvider b)) <> "" /\
  baseURL (settings_of (customAgentProvider b)) <> "" /\
  (forall role i, role_backend b role = Some i -> i <> "").
Proof.
  intros Hload. apply load_returned in Hload as (h & _ & Hcap & Hmy & _).
  split; [| split; [| split]].
  - rewrite Hcap. simpl. apply or_else_nonempty. discriminate.
  - rewrite Hcap. simpl. apply or_else_nonempty. discriminate.
  - rewrite Hcap. simpl. apply or_else_nonempty. discriminate.
  - intros role i. unfold role_backend. rewrite Hmy.
    destruct (isTestEnvironment e); simpl.
    + destruct (test_languageModels !! role) as [m|] eqn:Hm; [| discriminate].
      unfold test_languageModels in Hm.
      repeat (apply lookup_insert_Some in Hm as [[_ <-] | [_ Hm]]; [discriminate |]).
      rewrite lookup_empty in Hm. discriminate.
    + destruct (production_languageModels (env_vars e) (customAgentProvider b) !! role)
        as [m|] eqn:Hm; [| discriminate].
      apply production_entries in Hm as [[_ ->] | [[_ ->] | [[_ ->] | [_ ->]]]];
        simpl; intros Hi; injection Hi as <-; apply or_else_nonempty; discriminate.
Qed.

(** X4. The module sees the environment through its effective values only: two
    environments in which every [process.env.X || fallback] has the same value
    and the same text, or none, goes to [JSON.parse], and which agree on
    [isTestEnvironment], have the same outcome.  So a variable that is unset,
    one that is empty and one that is set to its fallback cannot be told
    apart. *)
Theorem outcome_depends_on_effective_values (e1 e2 : Environment) :
  same_effective_values e1 e2 ->
  isTestEnvironment e1 = isTestEnvironment e2 ->
  outcome_of (load e1) = outcome_of (load e2).
Proof.
  intros [Hall Hh] Htest. unfold fallbacks in Hall.
  repeat (apply Forall_cons_1 in Hall as [? Hall]).
  unfold effective in *. simpl in *.
  rewrite !load_run. unfold outcome_of. simpl. rewrite <- Htest.
  unfold module_outcome. rewrite !configured_headers_text, <- Hh.
  unfold selected_provider, production_languageModels, configured_provider.
  repeat match goal with
         | H : or_else (env_vars e1 !! _) _ = _ |- _ => rewrite H; clear H
         end.
  reflexivity.
Qed.

(** X5. In the production branch the provider tells the effective values apart:
    two environments that load get the same [myProvider] exactly when they
    get the same [customAgentProvider] and the same four effective model
    identifiers. *)
Theorem production_provider_reflects_effective_values
    (e1 e2 : Environment) (b1 b2 : Bindings) (w1 w2 : World) :
  isTestEnvironment e1 = false ->
  isTestEnvironment e2 = false ->
  load e1 = (Returned b1, w1) ->
  load e2 = (Returned b2, w2) ->
  (myProvider b1 = myProvider b2 <->
   customAgentProvider b1 = customAgentProvider b2 /\
   effective (env_vars e1) ("CUSTOM_AGENT_CHAT_MODEL", "gpt-4o-mini") =
     effective (env_vars e2) ("CUSTOM_AGENT_CHAT_MODEL", "gpt-4o-mini") /\
   effective (env_vars e1) ("CUSTOM_AGENT_REASONING_MODEL", "gpt-4o") =
     effective (env_vars e2) ("CUSTOM_AGENT_REASONING_MODEL", "gpt-4o") /\
   effective (env_vars e1) ("CUSTOM_AGENT_TITLE_MODEL", "gpt-3.5-turbo") =
     effective (env_vars e2) ("CUSTOM_AGENT_TITLE_MODEL", "gpt-3.5-turbo") /\
   effective (env_vars e1) ("CUSTOM_AGENT_ARTIFACT_MODEL", "gpt-4o") =
     effective (env_vars e2) ("CUSTOM_AGENT_ARTIFACT_MODEL", "gpt-4o")).
Proof.
  intros Ht1 Ht2 Hl1 Hl2.
  apply load_returned in Hl1 as (h1 & _ & _ & Hmy1 & _).
  apply load_returned in Hl2 as (h2 & _ & _ & Hmy2 & _).
  rewrite Ht1 in Hmy1. rewrite Ht2 in Hmy2. simpl in Hmy1, Hmy2.
  rewrite Hmy1, Hmy2. unfold effective. simpl.
  destruct (production_lookup (env_vars e1) (customAgentProvider b1))
    as (Hc1 & Hr1 & Hti1 & Ha1).
  destruct (production_lookup (env_vars e2) (customAgentProvider b2))
    as (Hc2 & Hr2 & Hti2 & Ha2).
  split.
  - intros Heq. apply (f_equal languageModels) in Heq.
    cbn [languageModels] in Heq.
    rewrite Heq in Hc1, Hr1, Hti1, Ha1.
    rewrite Hc2 in Hc1. rewrite Hr2 in Hr1. rewrite Hti2 in Hti1. rewrite Ha2 in Ha1.
    injection Hc1 as Hcap Hc. injection Hr1 as _ Hr.
    injection Hti1 as _ Hti. injection Ha1 as _ Ha.
    auto.
  - intros (Hcap & Hc & Hr & Hti & Ha).
    unfold production_languageModels. rewrite Hcap, Hc, Hr, Hti, Ha. reflexivity.
Qed.

(** X6. The four model-selection variables are read exactly when the module
    loads in the production branch: a load that throws, and a load in a test
    environment, read none of them. *)
Theorem model_variables_read_iff_production_load (e : Environment) :
  Forall (fun v => v ∈ trace_of (load e) <->
                   isTestEnvironment e = false /\
                   exists b, outcome_of (load e) = Returned b)
         model_variables.
Proof.
  rewrite load_run. unfold outcome_of, trace_of, module_outcome, module_reads. simpl.
  unfold model_variables.
  destruct (truthy (env_vars e !! "CUSTOM_AGENT_HEADERS"));
    destruct (configured_headers (env_vars e)) as [h|x];
    destruct (isTestEnvironment e); simpl;
    repeat (apply Forall_cons; split;
            [split;
             [ rewrite ?elem_of_cons, elem_of_nil; intros Hin;
               try (split; [reflexivity | eexists; reflexivity]);
               exfalso;
               repeat (destruct Hin as [Hin | Hin]; [discriminate Hin |]);
               exact Hin
             | intros [Hf [b' Hb]];
               try discriminate Hf; try discriminate Hb;
               repeat first [apply list_elem_of_here | apply list_elem_of_further] ]
            |]);
    apply Forall_nil_2.
Qed.

End Settings.

(** * The further properties at concrete environments *)

Lemma load_other_backend :
  load (X:=sample_externals) other_backend =
    (Returned other_backend_bindings,
     mkWorld (env_vars other_backend)
       [ "CUSTOM_AGENT_PROVIDER_NAME"; "CUSTOM_AGENT_API_KEY";
         "CUSTOM_AGENT_BASE_URL"; "CUSTOM_AGENT_HEADERS"; "CUSTOM_AGENT_HEADERS";
         "CUSTOM_AGENT_CHAT_MODEL"; "CUSTOM_AGENT_REASONING_MODEL";
         "CUSTOM_AGENT_TITLE_MODEL"; "CUSTOM_AGENT_ARTIFACT_MODEL" ]).
Proof. vm_compute. reflexivity. Defined.


Lemma headers_are_the_parsed_variable_witness :
  env_vars local_backend !! "CUSTOM_AGENT_HEADERS" = Some "{}" /\
  "{}" <> "" /\
  JSON_parse (Externals:=sample_externals) "{}" = Some [] /\
  exists b,
    outcome_of (load (X:=sample_externals) local_backend) = Returned b /\
    headers (settings_of (customAgentProvider b)) = [].
Proof.
  assert (Hne : "{}" <> "") by discriminate.
  split; [reflexivity |]. split; [exact Hne |]. split; [reflexivity |].
  exact (headers_are_the_parsed_variable (X:=sample_externals)
           local_backend "{}" [] eq_refl Hne eq_refl).
Defined.

Lemma configured_strings_are_never_empty_witness :
  outcome_of (load (X:=sample_externals) no_variables) =
    Returned no_variables_bindings /\
  apiKey (settings_of (customAgentProvider no_variables_bindings)) <> "" /\
  (forall role i, role_backend no_variables_bindings role = Some i -> i <> "").
Proof.
  split; [rewrite load_no_variables; reflexivity |].
  destruct (configured_strings_are_never_empty _ _ _ load_no_variables)
    as (_ & Hk & _ & Hids).
  split; [exact Hk | exact Hids].
Defined.

Lemma outcome_depends_on_effective_values_witness :
  same_effective_values guide_values no_variables /\
  isTestEnvironment guide_values = isTestEnvironment no_variables /\
  env_vars guide_values !! "CUSTOM_AGENT_CHAT_MODEL" = Some "gpt-4o-mini" /\
  env_vars no_variables !! "CUSTOM_AGENT_CHAT_MODEL" = None /\
  outcome_of (load (X:=sample_externals) guide_values) =
    outcome_of (load (X:=sample_externals) no_variables).
Proof.
  assert (Hsame : same_effective_values guide_values no_variables)
    by (split; [repeat constructor | reflexivity]).
  split; [exact Hsame |]. split; [reflexivity |].
  split; [reflexivity |]. split; [reflexivity |].
  exact (outcome_depends_on_effective_values (X:=sample_externals)
           guide_values no_variables Hsame eq_refl).
Defined.

Lemma production_provider_reflects_effective_values_witness :
  isTestEnvironment local_backend = false /\
  isTestEnvironment other_backend = false /\
  outcome_of (load (X:=sample_externals) local_backend) =
    Returned local_backend_bindings /\
  outcome_of (load (X:=sample_externals) other_backend) =
    Returned other_backend_bindings /\
  myProvider local_backend_bindings <> myProvider other_backend_bindings.
Proof.
  split; [reflexivity |]. split; [reflexivity |].
  split; [rewrite load_local_backend; reflexivity |].
  split; [rewrite load_other_backend; reflexivity |].
  intros Heq.
  apply (production_provider_reflects_effective_values
           local_backend other_backend _ _ _ _
           eq_refl eq_refl load_local_backend load_other_backend) in Heq.
  destruct Heq as (_ & Hc & _). vm_compute in Hc. discriminate Hc.
Defined.
